(** * Hotel staff notification server: the ticket log and its operations

    A shallow embedding of [hotel_staff_notification.py].  The program keeps
    a list of notification dictionaries in one JSON file, reads the wall
    clock to stamp them, and beeps.  All three are ambient state in the
    source, so the embedding threads an explicit [World] through a small
    state-and-exception monad. *)

From Stdlib Require Import ZArith Lia.
From stdpp Require Import gmap strings list fin_maps.

Local Set Warnings "-register-all".

(** ** Python values that travel through [json.load] / [json.dump] *)

(** What [json.load] can return: [None], [bool], [int], [float], [str],
    [list] and [dict] with [str] keys.  A [float] is kept as its literal;
    the program never inspects a number.  Strings are UTF-8 encoded text. *)
Inductive json :=
| JNull
| JBool (b : bool)
| JInt (n : Z)
| JFloat (lit : string)
| JStr (s : string)
| JArr (l : list json)
| JObj (m : gmap string json).

(** The exceptions the program can meet. *)
Inductive exn :=
| OSError              (* [IOError] is an alias of [OSError] *)
| JSONDecodeError      (* a [ValueError] raised by the [json] parser *)
| UnicodeDecodeError   (* a [ValueError] raised by the text decoder *)
| AttributeError
| TypeError
| ImportError
| RuntimeError.

Inductive result (A : Type) :=
| Ok (a : A)
| Raise (e : exn).
Arguments Ok {A} a.
Arguments Raise {A} e.

Definition rbind {A B} (r : result A) (k : A → result B) : result B :=
  match r with
  | Ok a => k a
  | Raise e => Raise e
  end.

(** ** Wall clock: [datetime.now()] *)

Record datetime := mkDatetime {
  year : nat; month : nat; day : nat;
  hour : nat; minute : nat; second : nat;
  microsecond : nat
}.

Definition digit (n : nat) : string :=
  String (Ascii.ascii_of_nat (48 + n mod 10)) EmptyString.

(** The last [w] decimal digits of [n], zero padded: [%02d], [%04d],
    [%06d] on the fields of a [datetime], which are in range for them. *)
Fixpoint pad (w n : nat) : string :=
  match w with
  | 0 => ""
  | S w' => pad w' (n / 10) +:+ digit n
  end.

(** [d.strftime('%Y%m%d%H%M%S')] *)
Definition strftime_YmdHMS (d : datetime) : string :=
  pad 4 (year d) +:+ pad 2 (month d) +:+ pad 2 (day d) +:+
  pad 2 (hour d) +:+ pad 2 (minute d) +:+ pad 2 (second d).

(** [d.isoformat()] of a naive datetime: the fraction is printed only when
    the microsecond field is not zero. *)
Definition isoformat (d : datetime) : string :=
  pad 4 (year d) +:+ "-" +:+ pad 2 (month d) +:+ "-" +:+ pad 2 (day d) +:+
  "T" +:+ pad 2 (hour d) +:+ ":" +:+ pad 2 (minute d) +:+ ":" +:+
  pad 2 (second d) +:+
  (if Nat.eqb (microsecond d) 0 then "" else "." +:+ pad 6 (microsecond d)).

(** ** The world the program runs in *)

(** What opening [hotel_notifications.json] for reading and handing it to
    [json.load] does.  The file is opened with [encoding="utf-8"]. *)
Inductive file_state :=
| Absent          (* no such path: [exists()] is false *)
| Unreadable      (* the path exists, [open] or [read] raises [OSError] *)
| Undecodable     (* the bytes are not UTF-8: [UnicodeDecodeError] *)
| Malformed       (* the text is not a JSON document: [JSONDecodeError] *)
| Holds (v : json). (* a JSON document, parsed to [v] *)

Record World := mkWorld {
  file : file_state;         (* NOTIFICATION_LOG_FILE *)
  writable : bool;           (* may the file be opened with mode "w" *)
  clock : nat → datetime;    (* successive readings of [datetime.now()] *)
  ticks : nat;               (* readings taken so far *)
  winsound : option nat;     (* [None]: no [winsound] module; [Some k]: the
                                device plays [k] more tones, then
                                [Beep] raises [RuntimeError] *)
  beeps : list (nat * nat)   (* tones played, oldest first *)
}.

Definition set_file (f : file_state) (w : World) : World :=
  mkWorld f (writable w) (clock w) (ticks w) (winsound w) (beeps w).

(** ** State and exception monad *)

Definition M (A : Type) : Type := World → result A * World.

Definition ret {A} (a : A) : M A := λ w, (Ok a, w).
Definition raise {A} (e : exn) : M A := λ w, (Raise e, w).
Definition bind {A B} (c : M A) (k : A → M B) : M B :=
  λ w, match c w with
       | (Ok a, w') => k a w'
       | (Raise e, w') => (Raise e, w')
       end.
Definition lift {A} (r : result A) : M A := λ w, (r, w).

(** [try: c  except (e1, e2, ...): h] *)
Definition try_except {A} (c : M A) (caught : exn → bool) (h : M A) : M A :=
  λ w, match c w with
       | (Ok a, w') => (Ok a, w')
       | (Raise e, w') => if caught e then h w' else (Raise e, w')
       end.

Notation "'do' x <- c ; k" := (bind c (λ x, k))
  (at level 10, x name, c at level 100, k at level 200).
Notation "'run' c ; k" := (bind c (λ _, k))
  (at level 10, c at level 100, k at level 200).

(** ** Library calls *)

Definition now : M datetime :=
  λ w, (Ok (clock w (ticks w)),
        mkWorld (file w) (writable w) (clock w) (S (ticks w))
                (winsound w) (beeps w)).

(** [NOTIFICATION_LOG_FILE.exists()], taken to answer: a directory that
    may not be searched, where it raises [PermissionError], is not among
    the states of the file. *)
Definition path_exists : M bool :=
  λ w, (Ok (match file w with Absent => false | _ => true end), w).

(** [with open(NOTIFICATION_LOG_FILE, "r", encoding="utf-8") as f:
       return json.load(f)]
    A document that [Holds] is one the parser accepts; documents beyond
    its limits (nesting depth, digits of an integer), where it raises
    [RecursionError] or a plain [ValueError], are not among the states of
    the file. *)
Definition open_read_json_load : M json :=
  λ w, (match file w with
        | Absent => Raise OSError
        | Unreadable => Raise OSError
        | Undecodable => Raise UnicodeDecodeError
        | Malformed => Raise JSONDecodeError
        | Holds v => Ok v
        end, w).

(** [with open(NOTIFICATION_LOG_FILE, "w", encoding="utf-8") as f:
       json.dump(v, f, ensure_ascii=False, indent=2)]
    A write fails at [open], before the file is touched, or not at all:
    strings are UTF-8 text, so encoding them cannot fail, and a failure
    after the file was truncated (a full disk) is left out.  Reading back
    what [json.dump] wrote gives the value again.  Statements about what a
    call that answered has written do not depend on this; statements that
    a call answers, or that a raising call left the file alone, do. *)
Definition open_write_json_dump (v : json) : M unit :=
  λ w, if writable w then (Ok tt, set_file (Holds v) w)
       else (Raise OSError, w).

(** [winsound.Beep(frequency, duration)], the import included. *)
Definition Beep (frequency duration : nat) : M unit :=
  λ w, match winsound w with
       | None => (Raise ImportError, w)
       | Some 0 => (Raise RuntimeError, w)
       | Some (S k) =>
           (Ok tt, mkWorld (file w) (writable w) (clock w) (ticks w)
                           (Some k) (beeps w ++ [(frequency, duration)]))
       end.

(** ** Python operations on values *)

(** [v.get(k)]: only a [dict] has [get]; a missing key gives [None]. *)
Definition py_get (v : json) (k : string) : result json :=
  match v with
  | JObj m => Ok (default JNull (m !! k))
  | _ => Raise AttributeError
  end.

(** [v == s] for a [str] [s]. *)
Definition py_eq_str (v : json) (s : string) : bool :=
  match v with
  | JStr s' => bool_decide (s' = s)
  | _ => false
  end.

(** [v[k] = x] on a [dict]. *)
Definition py_setitem (m : gmap string json) (k : string) (x : json)
  : gmap string json := <[k := x]> m.

Fixpoint chars (s : string) : list json :=
  match s with
  | EmptyString => []
  | String c s' => JStr (String c EmptyString) :: chars s'
  end.

(** [for x in v]: a list gives its items, a dict its keys, a str its
    characters; nothing else is iterable. *)
Definition py_iter (v : json) : result (list json) :=
  match v with
  | JArr l => Ok l
  | JObj m => Ok (JStr <$> (map_to_list m).*1)
  | JStr s => Ok (chars s)
  | _ => Raise TypeError
  end.

(** [l[-k:]] *)
Definition last_n {A} (k : nat) (l : list A) : list A :=
  drop (length l - k) l.

(** ** The program *)

Definition NOTIFICATION_SOUND_ENABLED : bool := true.

(** [get_timestamp] *)
Definition get_timestamp : M string :=
  do d <- now; ret (isoformat d).

(** [load_notifications].  The handler names [json.JSONDecodeError] and
    [IOError]; any other exception leaves the function. *)
Definition load_notifications : M json :=
  do e <- path_exists;
  if e : bool then
    try_except open_read_json_load
      (λ x, match x with JSONDecodeError | OSError => true | _ => false end)
      (ret (JArr []))
  else ret (JArr []).

(** [save_notification]: [append] exists on a list only. *)
Definition save_notification (notification : json) : M unit :=
  do notifications <- load_notifications;
  match notifications with
  | JArr l =>
      let l := l ++ [notification] in
      let l := if bool_decide (1000 < length l) then last_n 1000 l else l in
      open_write_json_dump (JArr l)
  | _ => raise AttributeError
  end.

Fixpoint repeat_M (n : nat) (c : M unit) : M unit :=
  match n with
  | 0 => ret tt
  | S n' => run c; repeat_M n' c
  end.

(** [play_notification_sound] *)
Definition play_notification_sound (priority : string) : M unit :=
  if negb NOTIFICATION_SOUND_ENABLED then ret tt
  else
    try_except
      (if bool_decide (priority = "urgent")
       then repeat_M 3 (run Beep 1000 200; Beep 1500 200)
       else Beep 800 300)
      (λ x, match x with ImportError | RuntimeError => true | _ => false end)
      (ret tt).

(** The dictionary [notify_staff] builds. *)
Definition new_notification (ticket_number timestamp reason guest_language
    priority location additional_info : string) : gmap string json :=
  list_to_map [
    ("ticket_number", JStr ticket_number);
    ("timestamp", JStr timestamp);
    ("reason", JStr reason);
    ("guest_language", JStr guest_language);
    ("priority", JStr priority);
    ("location", JStr location);
    ("additional_info", JStr additional_info);
    ("status", JStr "pending")
  ].

(** [notify_staff].  The console summary printed between the sound and
    the [return] is left out: it reads the same values, writes neither the
    file nor the result, and is taken to succeed (on a console that cannot
    encode its characters it would raise, the ticket saved and the alert
    sounded). *)
Definition notify_staff (reason guest_language priority location
    additional_info : string) : M (gmap string json) :=
  do d <- now;
  let ticket_number := "TKT-" +:+ strftime_YmdHMS d in
  do timestamp <- get_timestamp;
  let notification :=
    new_notification ticket_number timestamp reason guest_language
      priority location additional_info in
  run save_notification (JObj notification);
  run play_notification_sound priority;
  ret (list_to_map [
    ("success", JBool true);
    ("ticket_number", JStr ticket_number);
    ("message",
      JStr ("Staff has been notified. Ticket number: " +:+ ticket_number));
    ("estimated_response_time",
      JStr (if negb (bool_decide (priority = "urgent"))
            then "2-3 minutes" else "1 minute"))
  ]).

(** [[n for n in items if n.get("status") == "pending"]] *)
Fixpoint select_pending (items : list json) : result (list json) :=
  match items with
  | [] => Ok []
  | n :: rest =>
      rbind (py_get n "status") (λ s,
      rbind (select_pending rest) (λ tl,
      Ok (if py_eq_str s "pending" then n :: tl else tl)))
  end.

(** [get_pending_notifications] *)
Definition get_pending_notifications : M (list json) :=
  do notifications <- load_notifications;
  lift (rbind (py_iter notifications) select_pending).

(** The body of the [for] loop of [mark_notification_resolved], over the
    items not yet visited; [seen] are the items already passed. *)
Fixpoint resolve_loop (ticket_number : string) (seen todo : list json)
  : M (gmap string json) :=
  match todo with
  | [] =>
      ret (list_to_map [
        ("success", JBool false);
        ("message", JStr ("Ticket " +:+ ticket_number +:+ " not found"))])
  | notification :: rest =>
      do tn <- lift (py_get notification "ticket_number");
      if py_eq_str tn ticket_number then
        match notification with
        | JObj m =>
            let m := py_setitem m "status" (JStr "resolved") in
            do ts <- get_timestamp;
            let m := py_setitem m "resolved_at" (JStr ts) in
            run open_write_json_dump (JArr (seen ++ JObj m :: rest));
            ret (list_to_map [
              ("success", JBool true);
              ("message",
                JStr ("Ticket " +:+ ticket_number +:+ " marked as resolved"))])
        | _ => raise TypeError
        end
      else resolve_loop ticket_number (seen ++ [notification]) rest
  end.

(** [mark_notification_resolved] *)
Definition mark_notification_resolved (ticket_number : string)
  : M (gmap string json) :=
  do notifications <- load_notifications;
  do items <- lift (py_iter notifications);
  resolve_loop ticket_number [] items.

(** [call_staff]: [location] keeps its default; the result dictionary is
    the one the tool serialises with [json.dumps]. *)
Definition call_staff (reason guest_language priority additional_info : string)
  : M (gmap string json) :=
  notify_staff reason guest_language priority "Front Desk Kiosk"
    additional_info.

(** [[n.get("ticket_number") for n in items]] *)
Fixpoint ticket_numbers (items : list json) : result (list json) :=
  match items with
  | [] => Ok []
  | n :: rest =>
      rbind (py_get n "ticket_number") (λ t,
      rbind (ticket_numbers rest) (λ tl, Ok (t :: tl)))
  end.

(** [get_staff_status], before [json.dumps]. *)
Definition get_staff_status : M (gmap string json) :=
  do pending <- get_pending_notifications;
  do ids <- lift (ticket_numbers (last_n 5 pending));
  ret (list_to_map [
    ("pending_count", JInt (Z.of_nat (length pending)));
    ("pending_tickets", JArr ids)]).

(** ** Vocabulary of the statements *)

(** What [load_notifications] answers in a world. *)
Definition stored (w : World) : result json := (load_notifications w).1.

(** The stored list, empty when the file does not load to one. *)
Definition items (w : World) : list json :=
  match stored w with Ok (JArr l) => l | _ => [] end.

Definition is_dict (n : json) : Prop :=
  match n with JObj _ => True | _ => False end.

(** [n.get(k)] on an item known to be a dict. *)
Definition field (k : string) (n : json) : json :=
  match n with JObj m => default JNull (m !! k) | _ => JNull end.

Definition is_pending (n : json) : bool :=
  py_eq_str (field "status" n) "pending".

Definition has_number (tn : string) (n : json) : bool :=
  py_eq_str (field "ticket_number" n) tn.

(** An item the loop of [mark_notification_resolved] passes over: a dict
    with another ticket number. *)
Definition passed (tn : string) (n : json) : Prop :=
  is_dict n ∧ ¬ has_number tn n.

(** The clock after one and after two readings. *)
Definition tick (w : World) : World :=
  mkWorld (file w) (writable w) (clock w) (S (ticks w)) (winsound w) (beeps w).

Definition tick2 (w : World) : World :=
  mkWorld (file w) (writable w) (clock w) (S (S (ticks w)))
          (winsound w) (beeps w).

(** The ticket number and the record of a call that reads the clock at
    [d1] and then at [d2], and the dictionary it answers. *)
Definition ticket_number_at (d : datetime) : string :=
  "TKT-" +:+ strftime_YmdHMS d.

Definition ticket_at (d1 d2 : datetime) (reason guest_language priority
    location additional_info : string) : json :=
  JObj (new_notification (ticket_number_at d1) (isoformat d2) reason
          guest_language priority location additional_info).

Definition confirmation (ticket_number priority : string) : gmap string json :=
  list_to_map [
    ("success", JBool true);
    ("ticket_number", JStr ticket_number);
    ("message",
      JStr ("Staff has been notified. Ticket number: " +:+ ticket_number));
    ("estimated_response_time",
      JStr (if negb (bool_decide (priority = "urgent"))
            then "2-3 minutes" else "1 minute"))
  ].

(** The two dictionaries [mark_notification_resolved] answers, and the
    record it writes back. *)
Definition not_found (ticket_number : string) : gmap string json :=
  list_to_map [
    ("success", JBool false);
    ("message", JStr ("Ticket " +:+ ticket_number +:+ " not found"))].

Definition marked (ticket_number : string) : gmap string json :=
  list_to_map [
    ("success", JBool true);
    ("message", JStr ("Ticket " +:+ ticket_number +:+ " marked as resolved"))].

Definition resolved_record (m : gmap string json) (ts : string)
  : gmap string json :=
  py_setitem (py_setitem m "status" (JStr "resolved")) "resolved_at" (JStr ts).

(** The dictionary [get_staff_status] answers for a list of pending items. *)
Definition status_report (pending : list json) : gmap string json :=
  list_to_map [
    ("pending_count", JInt (Z.of_nat (length pending)));
    ("pending_tickets", JArr (field "ticket_number" <$> last_n 5 pending))].

(** The spec's words for the listing: the [k] most recently created of a
    list kept in creation order, still in creation order. *)
Definition most_recent {A} (k : nat) (l : list A) : list A :=
  reverse (take k (reverse l)).

(** *** Filing many tickets in a row *)

(** The arguments of one call of [notify_staff]. *)
Record staff_call := mkCall {
  arg_reason : string;
  arg_guest_language : string;
  arg_priority : string;
  arg_location : string;
  arg_additional_info : string
}.

Definition notify_call (c : staff_call) : M (gmap string json) :=
  notify_staff (arg_reason c) (arg_guest_language c) (arg_priority c)
    (arg_location c) (arg_additional_info c).


(** The records those calls build, in the order of the calls, when the
    clock has been read [t] times before the first. *)
Fixpoint filed (clk : nat → datetime) (t : nat) (cs : list staff_call)
  : list json :=
  match cs with
  | [] => []
  | c :: cs' =>
      ticket_at (clk t) (clk (S t)) (arg_reason c) (arg_guest_language c)
        (arg_priority c) (arg_location c) (arg_additional_info c)
      :: filed clk (S (S t)) cs'
  end.

(** *** Reachable stores *)

Inductive op :=
| OpNotify (c : staff_call)
| OpResolve (ticket_number : string)
| OpPending
| OpStatus.

(** The world an operation leaves behind, whether it answered or raised. *)
Definition exec (o : op) (w : World) : World :=
  match o with
  | OpNotify c => (notify_call c w).2
  | OpResolve tn => (mark_notification_resolved tn w).2
  | OpPending => (get_pending_notifications w).2
  | OpStatus => (get_staff_status w).2
  end.

(** Worlds that start with no file or an empty list and see only the
    program's operations, while clock, permissions and sound device change
    as they like. *)
Inductive reachable : World → Prop :=
| reach_empty w : file w = Absent ∨ file w = Holds (JArr []) → reachable w
| reach_exec o w : reachable w → reachable (exec o w)
| reach_env w w' : reachable w → file w' = file w → reachable w'.

Definition pending_ticket (n : json) : Prop :=
  ∃ m, n = JObj m ∧ m !! "status" = Some (JStr "pending") ∧
       m !! "resolved_at" = None.

Definition resolved_ticket (n : json) : Prop :=
  ∃ m, n = JObj m ∧ m !! "status" = Some (JStr "resolved") ∧
       is_Some (m !! "resolved_at").

Definition ticket_ok (n : json) : Prop := pending_ticket n ∨ resolved_ticket n.

(** How many of the oldest records an operation drops. *)
Definition evicted (o : op) (w : World) : nat :=
  match o with
  | OpNotify c =>
      match (notify_call c w).1 with
      | Ok _ => S (length (items w)) - length (items (exec o w))
      | Raise _ => 0
      end
  | _ => 0
  end.

(** [tracks w i w' j]: the record at index [i] of the store of [w] is, some
    operations later, at index [j] of the store of [w']. *)
Inductive tracks : World → nat → World → nat → Prop :=
| tracks_here w i : tracks w i w i
| tracks_exec w i w' o j :
    tracks w i w' (evicted o w' + j) → tracks w i (exec o w') j
| tracks_env w i w' w'' j :
    tracks w i w' j → file w'' = file w' → tracks w i w'' j.

(** *** A kiosk to run the program on *)

(** No file yet, a writable directory, no sound device, and a clock that
    stays within one second: 14 March 2025, 09:26:53, a millisecond
    further on at every reading. *)
Definition kiosk : World :=
  mkWorld Absent true (λ k, mkDatetime 2025 3 14 9 26 53 (1000 * k)) 0 None [].

Definition check_in : staff_call :=
  mkCall "Check-in" "Korean" "urgent" "Front Desk Kiosk" "".

Definition payment : staff_call :=
  mkCall "Payment" "English" "normal" "Front Desk Kiosk" "card declined".

(** Two guests within the same second, then staff resolve the number the
    second guest was given, then the status tool is asked. *)
Definition same_second_scenario
  : M (gmap string json * gmap string json * gmap string json *
       gmap string json) :=
  do a <- notify_call check_in;
  do b <- notify_call payment;
  do r <- mark_notification_resolved
            (match b !! "ticket_number" with Some (JStr tn) => tn | _ => "" end);
  do s <- get_staff_status;
  ret (a, b, r, s).

(** The number both guests are given, and the records the two calls
    build. *)
Definition same_second_number : string := "TKT-20250314092653".

Definition first_guest_ticket : gmap string json :=
  new_notification same_second_number "2025-03-14T09:26:53.001000"
    "Check-in" "Korean" "urgent" "Front Desk Kiosk" "".

Definition second_guest_ticket : gmap string json :=
  new_notification same_second_number "2025-03-14T09:26:53.003000"
    "Payment" "English" "normal" "Front Desk Kiosk" "card declined".

(** The kiosk with both records on file. *)
Definition busy_kiosk : World :=
  mkWorld (Holds (JArr [JObj first_guest_ticket; JObj second_guest_ticket]))
    true (clock kiosk) 4 None [].

(** What a reader of the file sees of a record. *)
Definition summary (n : json) : json * json * json * json :=
  (field "ticket_number" n, field "reason" n, field "status" n,
   field "resolved_at" n).

(** A kiosk whose clock moves on by a second at every reading, with seven
    calls on file. *)
Definition crowded_kiosk : World :=
  mkWorld
    (Holds (JArr (filed (λ k, mkDatetime 2025 3 14 9 26 k 0) 0
                    (replicate 7 check_in))))
    true (λ k, mkDatetime 2025 3 14 9 27 k 0) 0 None [].

(** *** The alert and the clock, for the statements about them *)

(** The tones [play_notification_sound] asks for, in order. *)
Definition alert_pattern (priority : string) : list (nat * nat) :=
  if bool_decide (priority = "urgent")
  then [(1000, 200); (1500, 200); (1000, 200); (1500, 200);
        (1000, 200); (1500, 200)]
  else [(800, 300)].

(** The tones a device plays of a pattern: none without [winsound], else
    as many as it has left. *)
Definition played (device : option nat) (pattern : list (nat * nat))
  : list (nat * nat) :=
  match device with
  | None => []
  | Some k => take k pattern
  end.

(** The device after it was asked for a pattern. *)
Definition worn (device : option nat) (pattern : list (nat * nat))
  : option nat :=
  match device with
  | None => None
  | Some k => Some (k - length pattern)
  end.

(** The ranges of the fields of a Python [datetime]. *)
Definition valid_datetime (d : datetime) : Prop :=
  1 ≤ year d < 10 ^ 4 ∧ 1 ≤ month d ≤ 12 ∧ 1 ≤ day d ≤ 31 ∧
  hour d < 24 ∧ minute d < 60 ∧ second d < 60 ∧ microsecond d < 10 ^ 6.

(** Two instants within the same second. *)
Definition same_second (d1 d2 : datetime) : Prop :=
  year d1 = year d2 ∧ month d1 = month d2 ∧ day d1 = day d2 ∧
  hour d1 = hour d2 ∧ minute d1 = minute d2 ∧ second d1 = second d2.

(** *** More kiosks *)

(** A world whose file cannot be opened for writing. *)
Definition locked (w : World) : World :=
  mkWorld (file w) false (clock w) (ticks w) (winsound w) (beeps w).




(** A kiosk whose file was edited by hand: a record, then a stray string. *)
Definition edited_kiosk : World :=
  mkWorld (Holds (JArr [JObj first_guest_ticket; JStr "call room 12"]))
    true (clock kiosk) 0 None [].

(** * Properties *)

(** ** The formats, on examples *)

Example strftime_example :
  strftime_YmdHMS (mkDatetime 2025 3 14 9 26 53 1000) = "20250314092653".
Proof. reflexivity. Qed.

Example isoformat_example :
  isoformat (mkDatetime 2025 3 14 9 26 53 1000) = "2025-03-14T09:26:53.001000".
Proof. reflexivity. Qed.

Example isoformat_whole_second :
  isoformat (mkDatetime 2025 3 14 9 26 53 0) = "2025-03-14T09:26:53".
Proof. reflexivity. Qed.

Example last_n_example : last_n 2 [1; 2; 3] = [2; 3] ∧ last_n 5 [1; 2; 3] = [1; 2; 3].
Proof. split; reflexivity. Qed.

Example urgent_alert :
  beeps (play_notification_sound "urgent"
           (mkWorld Absent true (clock kiosk) 0 (Some 4) [])).2 =
    [(1000, 200); (1500, 200); (1000, 200); (1500, 200)].
Proof. reflexivity. Qed.

(** ** Lists and values *)

Section slices.
Context {A : Type}.
Implicit Types (l a b : list A) (k : nat).

Lemma last_n_short k l : length l ≤ k → last_n k l = l.
Proof. intros H. unfold last_n. by replace (length l - k) with 0 by lia. Qed.

Lemma length_last_n k l : length (last_n k l) = length l `min` k.
Proof. unfold last_n. rewrite length_drop. lia. Qed.

Lemma last_n_snoc k l x : last_n (S k) (l ++ [x]) = last_n k l ++ [x].
Proof.
  unfold last_n. rewrite length_app. simpl.
  replace (length l + 1 - S k) with (length l - k) by lia.
  apply drop_app_le. lia.
Qed.


Lemma Forall_last_n (P : A → Prop) k l : Forall P l → Forall P (last_n k l).
Proof. apply Forall_drop. Qed.

Lemma last_n_most_recent k l : last_n k l = most_recent k l.
Proof.
  unfold last_n, most_recent. by rewrite take_reverse, reverse_involutive.
Qed.

End slices.

Lemma py_get_dict n k : is_dict n → py_get n k = Ok (field k n).
Proof. by destruct n. Qed.

Lemma py_eq_str_true v s : py_eq_str v s ↔ v = JStr s.
Proof.
  destruct v; simpl; try (split; [tauto|done]).
  rewrite bool_decide_spec. split; congruence.
Qed.

Lemma has_number_dict tn m :
  has_number tn (JObj m) ↔ m !! "ticket_number" = Some (JStr tn).
Proof.
  unfold has_number. rewrite py_eq_str_true. simpl.
  destruct (m !! "ticket_number"); simpl; split; congruence.
Qed.

Lemma field_resolved_record m ts k :
  k ≠ "status" → k ≠ "resolved_at" →
  field k (JObj (resolved_record m ts)) = field k (JObj m).
Proof.
  intros H1 H2. unfold resolved_record, py_setitem. simpl.
  by rewrite !lookup_insert_ne.
Qed.

(** ** Reading the file *)

Lemma load_notifications_eq w :
  load_notifications w =
    (match file w with
     | Absent | Unreadable | Malformed => Ok (JArr [])
     | Undecodable => Raise UnicodeDecodeError
     | Holds v => Ok v
     end, w).
Proof.
  unfold load_notifications, bind, path_exists, try_except,
    open_read_json_load, ret.
  by destruct w as [[] ? ? ? ? ?].
Qed.

Lemma stored_holds w v : file w = Holds v → stored w = Ok v.
Proof. intros H. unfold stored. by rewrite load_notifications_eq, H. Qed.

Lemma stored_file w w' : file w' = file w → stored w' = stored w.
Proof. intros H. unfold stored. by rewrite !load_notifications_eq, H. Qed.

Lemma items_file w w' : file w' = file w → items w' = items w.
Proof. intros H. unfold items. by rewrite (stored_file _ _ H). Qed.

Lemma items_stored w l : stored w = Ok (JArr l) → items w = l.
Proof. unfold items. by intros ->. Qed.

Lemma select_pending_dicts l :
  Forall is_dict l → select_pending l = Ok (filter is_pending l).
Proof.
  induction 1 as [|n l Hn _ IH]; [done|].
  simpl. rewrite (py_get_dict _ _ Hn), IH. simpl.
  rewrite filter_cons.
  change (py_eq_str (field "status" n) "pending") with (is_pending n).
  by destruct (is_pending n).
Qed.

Lemma ticket_numbers_dicts l :
  Forall is_dict l → ticket_numbers l = Ok (field "ticket_number" <$> l).
Proof.
  induction 1 as [|n l Hn _ IH]; [done|].
  simpl. by rewrite (py_get_dict _ _ Hn), IH.
Qed.

Lemma get_pending_notifications_eq w l :
  stored w = Ok (JArr l) → Forall is_dict l →
  get_pending_notifications w = (Ok (filter is_pending l), w).
Proof.
  unfold stored, get_pending_notifications, bind, lift.
  rewrite load_notifications_eq. simpl. intros -> Hl. simpl.
  by rewrite select_pending_dicts.
Qed.

Lemma get_staff_status_eq w l :
  stored w = Ok (JArr l) → Forall is_dict l →
  get_staff_status w = (Ok (status_report (filter is_pending l)), w).
Proof.
  intros Hs Hl. unfold get_staff_status. unfold bind at 1.
  rewrite (get_pending_notifications_eq _ _ Hs Hl).
  unfold bind, lift. rewrite ticket_numbers_dicts; [done|].
  apply Forall_last_n. rewrite Forall_forall in *.
  intros n [_ Hn]%list_elem_of_filter. auto.
Qed.


(** The read-only tools leave the world alone, whatever they answer. *)
Lemma get_pending_notifications_frame w : (get_pending_notifications w).2 = w.
Proof.
  unfold get_pending_notifications, bind, lift.
  rewrite load_notifications_eq. by destruct (file w).
Qed.

Lemma get_staff_status_frame w : (get_staff_status w).2 = w.
Proof.
  unfold get_staff_status. unfold bind at 1.
  pose proof (get_pending_notifications_frame w) as H.
  destruct (get_pending_notifications w) as [[p|e] w1]; simpl in H; subst w1;
    [|done].
  unfold bind, lift, ret. by destruct (ticket_numbers _).
Qed.

(** ** Writing the file and sounding the alert *)

Lemma save_notification_eq n w l :
  stored w = Ok (JArr l) →
  save_notification n w =
    if writable w
    then (Ok tt, set_file (Holds (JArr (last_n 1000 (l ++ [n])))) w)
    else (Raise OSError, w).
Proof.
  unfold stored, save_notification, bind. rewrite load_notifications_eq.
  simpl. intros ->. unfold open_write_json_dump.
  case_bool_decide; [done|]. by rewrite last_n_short by lia.
Qed.

(** The alert never fails the caller and touches the sound device only. *)
Lemma play_notification_sound_ok priority w :
  ∃ k b, play_notification_sound priority w =
    (Ok tt, mkWorld (file w) (writable w) (clock w) (ticks w) k b).
Proof.
  destruct w as [f wr c t ws b].
  unfold play_notification_sound. simpl.
  case_bool_decide; unfold try_except;
    destruct ws as [[|[|[|[|[|[|k]]]]]]|]; simpl; eauto.
Qed.

Lemma play_notification_sound_frame priority w :
  let w' := (play_notification_sound priority w).2 in
  file w' = file w ∧ writable w' = writable w ∧ clock w' = clock w ∧
  ticks w' = ticks w.
Proof. destruct (play_notification_sound_ok priority w) as (k & b & ->). done. Qed.

Lemma play_notification_sound_fst priority w :
  (play_notification_sound priority w).1 = Ok tt.
Proof. destruct (play_notification_sound_ok priority w) as (k & b & ->). done. Qed.

(** ** Filing a ticket *)

Section filing.
Variables (reason guest_language priority location additional_info : string).

(** The call, evaluated: it answers when the file loads to a list and can
    be written, and raises otherwise, two clock readings later. *)
Lemma notify_staff_eq w :
  notify_staff reason guest_language priority location additional_info w =
    match stored w with
    | Ok (JArr l) =>
        if writable w then
          (Ok (confirmation (ticket_number_at (clock w (ticks w))) priority),
           (play_notification_sound priority
              (set_file
                 (Holds (JArr (last_n 1000
                    (l ++ [ticket_at (clock w (ticks w)) (clock w (S (ticks w)))
                             reason guest_language priority location
                             additional_info]))))
                 (tick2 w))).2)
        else (Raise OSError, tick2 w)
    | Ok _ => (Raise AttributeError, tick2 w)
    | Raise e => (Raise e, tick2 w)
    end.
Proof.
  unfold notify_staff, get_timestamp. unfold bind at 1 2 3. unfold now, ret.
  cbn [clock ticks file writable winsound beeps].
  change (mkWorld (file w) (writable w) (clock w) (S (S (ticks w)))
            (winsound w) (beeps w)) with (tick2 w).
  assert (Hs : stored (tick2 w) = stored w) by by apply stored_file.
  unfold bind at 1.
  destruct (stored w) as [v|e] eqn:E.
  - destruct v; try (unfold save_notification, bind;
      rewrite load_notifications_eq; unfold stored in E;
      rewrite load_notifications_eq in E; simpl in *;
      destruct (file w); simplify_eq; done).
    rewrite (save_notification_eq _ _ l) by congruence.
    change (writable (tick2 w)) with (writable w).
    destruct (writable w); [|done].
    unfold bind.
    pose proof (play_notification_sound_fst priority (set_file
                 (Holds (JArr (last_n 1000
                    (l ++ [ticket_at (clock w (ticks w)) (clock w (S (ticks w)))
                             reason guest_language priority location
                             additional_info]))))
                 (tick2 w))) as Hp.
    unfold ticket_at, ticket_number_at in *.
    destruct (play_notification_sound _ _) as [[[]|] w']; simplify_eq/=; done.
  - unfold save_notification, bind; rewrite load_notifications_eq.
    unfold stored in E; rewrite load_notifications_eq in E. simpl in *.
    destruct (file w); simplify_eq; done.
Qed.

Lemma notify_staff_ok w l :
  stored w = Ok (JArr l) → writable w = true →
  ∃ w',
    notify_staff reason guest_language priority location additional_info w =
      (Ok (confirmation (ticket_number_at (clock w (ticks w))) priority), w') ∧
    file w' = Holds (JArr (last_n 1000
      (l ++ [ticket_at (clock w (ticks w)) (clock w (S (ticks w))) reason
               guest_language priority location additional_info]))) ∧
    writable w' = true ∧ clock w' = clock w ∧ ticks w' = S (S (ticks w)).
Proof.
  intros Hs Hw. rewrite notify_staff_eq, Hs, Hw.
  eexists. split; [done|].
  match goal with |- context [play_notification_sound ?p ?x] =>
    destruct (play_notification_sound_frame p x) as (-> & -> & -> & ->) end.
  done.
Qed.

Lemma notify_staff_inv w r w' :
  notify_staff reason guest_language priority location additional_info w =
    (Ok r, w') →
  ∃ l, stored w = Ok (JArr l) ∧ writable w = true.
Proof.
  rewrite notify_staff_eq. intros H.
  destruct (stored w) as [[]|]; try done.
  destruct (writable w); [eauto|done].
Qed.

(** C1. A filing with priority exactly "urgent" answers an estimated
    response time of "1 minute"; with every other priority string, whatever
    it is, it answers "2-3 minutes"; the priority is stored as given. *)
Theorem notify_staff_estimated_response_time w :
  ∀ r w',
    notify_staff reason guest_language priority location additional_info w =
      (Ok r, w') →
    (priority = "urgent" →
       r !! "estimated_response_time" = Some (JStr "1 minute")) ∧
    (priority ≠ "urgent" →
       r !! "estimated_response_time" = Some (JStr "2-3 minutes")) ∧
    ∃ l' m, file w' = Holds (JArr (l' ++ [JObj m])) ∧
            m !! "priority" = Some (JStr priority).
Proof.
  intros r w' H.
  destruct (notify_staff_inv _ _ _ H) as (l & Hs & Hw).
  destruct (notify_staff_ok w l Hs Hw) as (w1 & H1 & Hf & _).
  rewrite H in H1. injection H1 as -> <-.
  split_and!.
  - by intros ->.
  - intros Hp. unfold confirmation. simpl.
    by rewrite bool_decide_false.
  - rewrite Hf, (last_n_snoc 999). by eexists _, _.
Qed.


End filing.

(** ** Listing *)

(** C8. On a store of tickets, the status tool answers the number of
    tickets whose status is "pending" and at most five ticket numbers:
    those of the most recently created pending tickets, oldest first. *)
Theorem get_staff_status_listing w l :
  stored w = Ok (JArr l) →
  Forall is_dict l →
  ∃ r ids,
    get_staff_status w = (Ok r, w) ∧
    r !! "pending_count" =
      Some (JInt (Z.of_nat (length (filter is_pending l)))) ∧
    r !! "pending_tickets" = Some (JArr ids) ∧
    length ids ≤ 5 ∧
    length ids = length (filter is_pending l) `min` 5 ∧
    ids = field "ticket_number" <$> most_recent 5 (filter is_pending l).
Proof.
  intros Hs Hd. rewrite (get_staff_status_eq _ _ Hs Hd).
  eexists _, _. split; [done|]. split; [done|]. split; [done|].
  rewrite length_fmap, length_last_n, last_n_most_recent.
  split_and!; [lia|done|done].
Qed.

(** ** Resolving a ticket *)

Section resolving.
Variable tn : string.

Lemma resolve_loop_skip pre : ∀ seen rest w,
  Forall (passed tn) pre →
  resolve_loop tn seen (pre ++ rest) w = resolve_loop tn (seen ++ pre) rest w.
Proof.
  induction pre as [|n pre IH]; intros seen rest w Hp.
  - by rewrite app_nil_r.
  - apply Forall_cons in Hp as [[Hd Hn] Hp]. simpl.
    unfold bind at 1, lift. rewrite (py_get_dict _ _ Hd).
    change (py_eq_str (field "ticket_number" n) tn) with (has_number tn n).
    destruct (has_number tn n); [by destruct Hn|].
    rewrite IH by done. by rewrite <-app_assoc.
Qed.

Lemma resolve_loop_hit seen m rest w :
  has_number tn (JObj m) →
  resolve_loop tn seen (JObj m :: rest) w =
    if writable w then
      (Ok (marked tn),
       set_file (Holds (JArr (seen ++
         JObj (resolved_record m (isoformat (clock w (ticks w)))) :: rest)))
         (tick w))
    else (Raise OSError, tick w).
Proof.
  intros Hm. simpl. unfold bind at 1, lift. simpl.
  change (py_eq_str (default JNull (m !! "ticket_number")) tn)
    with (has_number tn (JObj m)).
  destruct (has_number tn (JObj m)); [|done].
  unfold get_timestamp, bind, now, ret, open_write_json_dump. simpl.
  unfold tick. by destruct (writable w).
Qed.

Lemma resolve_loop_bad seen n rest w :
  ¬ is_dict n → resolve_loop tn seen (n :: rest) w = (Raise AttributeError, w).
Proof. intros Hn. by destruct n. Qed.

(** How the scan of a list ends: it passes every item, or stops at a first
    dict with the number, or at a first item that is not a dict. *)
Lemma scan_cases l :
  Forall (passed tn) l ∨
  ∃ i n, l !! i = Some n ∧ Forall (passed tn) (take i l) ∧
         (¬ is_dict n ∨ is_dict n ∧ has_number tn n).
Proof.
  induction l as [|n l IH]; [by left|].
  destruct n as [|b|z|lit|s|a|m];
    try (right; eexists 0, _; split_and!;
         [done|by constructor|left; simpl; tauto]).
  destruct (has_number tn (JObj m)) eqn:Hh.
  - right. exists 0, (JObj m). split_and!; [done|by constructor|].
    right. by rewrite Hh.
  - assert (passed tn (JObj m)) by (split; [done|rewrite Hh; simpl; tauto]).
    destruct IH as [IH|(i & x & Hi & Hp & Hx)].
    + left. by constructor.
    + right. exists (S i), x. split_and!; [done|by constructor|done].
Qed.

Lemma mark_notification_resolved_start w l :
  stored w = Ok (JArr l) →
  mark_notification_resolved tn w = resolve_loop tn [] l w.
Proof.
  unfold stored, mark_notification_resolved. unfold bind at 1.
  rewrite load_notifications_eq. simpl. by intros ->.
Qed.

Lemma mark_notification_resolved_cases w l :
  stored w = Ok (JArr l) →
  (Forall (passed tn) l ∧
   mark_notification_resolved tn w = (Ok (not_found tn), w)) ∨
  (∃ i m, l !! i = Some (JObj m) ∧ has_number tn (JObj m) ∧
     Forall (passed tn) (take i l) ∧
     mark_notification_resolved tn w =
       if writable w then
         (Ok (marked tn),
          set_file (Holds (JArr (<[i :=
            JObj (resolved_record m (isoformat (clock w (ticks w))))]> l)))
            (tick w))
       else (Raise OSError, tick w)) ∨
  (∃ i n, l !! i = Some n ∧ ¬ is_dict n ∧ Forall (passed tn) (take i l) ∧
     mark_notification_resolved tn w = (Raise AttributeError, w)).
Proof.
  intros Hs. rewrite (mark_notification_resolved_start _ _ Hs).
  destruct (scan_cases l) as [Hp|(i & n & Hi & Hp & Hn)].
  - left. split; [done|].
    rewrite <-(app_nil_r l) at 1. by rewrite resolve_loop_skip.
  - right.
    assert (resolve_loop tn [] l w =
            resolve_loop tn (take i l) (n :: drop (S i) l) w) as ->.
    { rewrite <-(take_drop_middle l i n Hi) at 1.
      by rewrite resolve_loop_skip. }
    destruct Hn as [Hn|[Hd Hn]].
    + right. exists i, n. by rewrite resolve_loop_bad.
    + left. destruct n as [| | | | | |m]; try done.
      exists i, m. rewrite resolve_loop_hit by done.
      rewrite insert_take_drop by (by eapply lookup_lt_Some).
      done.
Qed.

(** C5. Resolving a number that no stored ticket carries answers the
    failure dictionary naming that number, raises nothing, and leaves the
    world, the file with it, as it was. *)
Theorem mark_notification_resolved_unknown w l :
  stored w = Ok (JArr l) →
  Forall is_dict l →
  (∀ n, n ∈ l → field "ticket_number" n ≠ JStr tn) →
  ∃ r,
    mark_notification_resolved tn w = (Ok r, w) ∧
    r !! "success" = Some (JBool false) ∧
    r !! "message" = Some (JStr ("Ticket " +:+ tn +:+ " not found")).
Proof.
  intros Hs Hd Hn. exists (not_found tn). split; [|done].
  destruct (mark_notification_resolved_cases w l Hs)
    as [[_ H]|[(i & m & Hi & Hm & _)|(i & n & Hi & Hb & _)]]; [done|..].
  - destruct (Hn (JObj m)).
    + by eapply list_elem_of_lookup_2.
    + by apply py_eq_str_true.
  - destruct Hb. eapply Forall_lookup_1; eauto.
Qed.

(** C10. A successful resolve rewrites the first ticket that carries the
    number and nothing else: the list keeps its length and every other
    item, later tickets with the same number included; in the rewritten
    ticket only "status" and "resolved_at" change. *)
Theorem mark_notification_resolved_frame w l :
  stored w = Ok (JArr l) →
  ∀ r w',
    mark_notification_resolved tn w = (Ok r, w') →
    r !! "success" = Some (JBool true) →
    ∃ i m m' l',
      l !! i = Some (JObj m) ∧ m !! "ticket_number" = Some (JStr tn) ∧
      (∀ j n, j < i → l !! j = Some n → field "ticket_number" n ≠ JStr tn) ∧
      file w' = Holds (JArr l') ∧
      length l' = length l ∧
      (∀ j, j ≠ i → l' !! j = l !! j) ∧
      l' !! i = Some (JObj m') ∧
      m' !! "status" = Some (JStr "resolved") ∧
      m' !! "resolved_at" = Some (JStr (isoformat (clock w (ticks w)))) ∧
      (∀ k, k ≠ "status" → k ≠ "resolved_at" → m' !! k = m !! k).
Proof.
  intros Hs.
  destruct (mark_notification_resolved_cases w l Hs)
    as [[Hp H]|[(i & m & Hi & Hm & Hp & H)|(i & n & Hi & Hb & _ & H)]];
    rewrite H; clear H.
  - by intros r w' [= <- <-] Hr.
  - intros r w' Hr _. destruct (writable w); [|done].
    injection Hr as <- <-.
    exists i, m, (resolved_record m (isoformat (clock w (ticks w)))),
      (<[i := JObj (resolved_record m (isoformat (clock w (ticks w))))]> l).
    split_and!; try done.
    + by apply has_number_dict.
    + intros j n Hj Hn Hf.
      assert (take i l !! j = Some n) as Ht by by rewrite lookup_take_lt.
      apply (Forall_lookup_1 _ _ _ _ Hp) in Ht as [_ []].
      by apply py_eq_str_true.
    + apply length_insert.
    + intros j Hj. by apply list_lookup_insert_ne.
    + apply list_lookup_insert_eq. by eapply lookup_lt_Some.
    + unfold resolved_record, py_setitem.
      by rewrite lookup_insert_ne, lookup_insert_eq.
    + unfold resolved_record, py_setitem. by rewrite lookup_insert_eq.
    + intros k H1 H2. unfold resolved_record, py_setitem.
      by rewrite !lookup_insert_ne.
  - done.
Qed.

End resolving.

(** ** Filing many tickets: the bound of 1000 *)


Lemma filed_dicts clk t cs : Forall is_dict (filed clk t cs).
Proof. revert t. induction cs; intros; constructor; auto. exact I. Qed.

Lemma filed_all_pending clk t cs : Forall is_pending (filed clk t cs).
Proof. revert t. induction cs; intros; constructor; auto. Qed.

Create HintDb tickets.
#[local] Hint Resolve Forall_last_n filed_dicts filed_all_pending : tickets.




(** ** The life of a ticket *)

Lemma ticket_ok_dict n : ticket_ok n → is_dict n.
Proof. by intros [(m & -> & _)|(m & -> & _)]. Qed.

Lemma pending_ticket_at d1 d2 a b c d e :
  pending_ticket (ticket_at d1 d2 a b c d e).
Proof. eexists. by split_and!. Qed.

Lemma resolved_ticket_record m ts : resolved_ticket (JObj (resolved_record m ts)).
Proof.
  eexists. split; [done|]. unfold resolved_record, py_setitem.
  rewrite lookup_insert_ne, !lookup_insert_eq by done. eauto.
Qed.

(** What one operation does to a store of tickets: nothing, or it appends a
    pending ticket and drops the oldest beyond 1000, or it rewrites one
    ticket as resolved. *)
Lemma exec_cases o w l :
  stored w = Ok (JArr l) → Forall ticket_ok l →
  ∃ l', stored (exec o w) = Ok (JArr l') ∧
    ((l' = l ∧ evicted o w = 0) ∨
     (∃ c t, o = OpNotify c ∧ pending_ticket t ∧
             l' = drop (evicted o w) (l ++ [t]) ∧ evicted o w ≤ length l) ∨
     (∃ tn i m ts, o = OpResolve tn ∧ l !! i = Some (JObj m) ∧
             l' = <[i := JObj (resolved_record m ts)]> l ∧ evicted o w = 0)).
Proof.
  intros Hs Hok. destruct o as [c|tn| |].
  - unfold evicted, exec. unfold notify_call. rewrite notify_staff_eq, Hs.
    destruct (writable w) eqn:Hw.
    + destruct (notify_staff_ok (arg_reason c) (arg_guest_language c)
        (arg_priority c) (arg_location c) (arg_additional_info c) w l Hs Hw)
        as (w1 & H1 & Hf & _).
      rewrite notify_staff_eq, Hs, Hw in H1. injection H1 as H1.
      rewrite H1. simpl. rewrite (items_stored _ _ Hs).
      rewrite (items_stored _ _ (stored_holds _ _ Hf)).
      eexists. split; [by apply stored_holds|].
      right; left. eexists c, _. split_and!; [done|apply pending_ticket_at|..].
      * unfold last_n. f_equal. rewrite length_drop, length_app. simpl. lia.
      * unfold last_n. rewrite length_drop, length_app. simpl. lia.
    + simpl. exists l. split; [|by left]. by rewrite (stored_file w).
  - unfold evicted, exec.
    destruct (mark_notification_resolved_cases tn w l Hs)
      as [[_ H]|[(i & m & Hi & Hm & _ & H)|(i & n & _ & _ & _ & H)]];
      rewrite H; clear H; simpl.
    + exists l. split; [done|by left].
    + destruct (writable w); simpl.
      * eexists. split; [by apply stored_holds|].
        right; right. by eexists tn, i, m, _.
      * exists l. split; [|by left]. by rewrite (stored_file w).
    + exists l. split; [done|by left].
  - exists l. simpl. rewrite get_pending_notifications_frame.
    split; [done|by left].
  - exists l. simpl. rewrite get_staff_status_frame.
    split; [done|by left].
Qed.

(** Every reachable store is a list of tickets, each pending without
    "resolved_at" or resolved with it. *)
Lemma reachable_ok w :
  reachable w → ∃ l, stored w = Ok (JArr l) ∧ Forall ticket_ok l.
Proof.
  induction 1 as [w [H|H]|o w _ (l & Hs & Hok)|w w' _ (l & Hs & Hok) Hf].
  - exists []. split; [|done]. unfold stored.
    by rewrite load_notifications_eq, H.
  - exists []. split; [|done]. by apply stored_holds.
  - destruct (exec_cases o w l Hs Hok) as (l' & Hs' & Hc). exists l'.
    split; [done|].
    destruct Hc as [[-> _]|[(c & t & _ & Ht & -> & _)|
                            (tn & i & m & ts & _ & Hi & -> & _)]].
    + done.
    + apply Forall_drop, Forall_app. split; [done|].
      constructor; [by left|done].
    + apply Forall_insert; [done|]. right. apply resolved_ticket_record.
  - exists l. split; [|done]. by rewrite (stored_file w).
Qed.

(** A record of the store after an operation is the record the eviction
    count points back to, unchanged or resolved by this very operation; a
    record with no predecessor was just filed and is pending. *)
Lemma exec_ticket o w j t' :
  reachable w → items (exec o w) !! j = Some t' →
  match items w !! (evicted o w + j) with
  | Some t =>
      t' = t ∨
      ((∃ tn, o = OpResolve tn) ∧ resolved_ticket t' ∧
       ∀ k, k ≠ "status" → k ≠ "resolved_at" → field k t' = field k t)
  | None => (∃ c, o = OpNotify c) ∧ pending_ticket t'
  end.
Proof.
  intros (l & Hs & Hok)%reachable_ok.
  destruct (exec_cases o w l Hs Hok) as (l' & Hs' & Hc).
  rewrite (items_stored _ _ Hs), (items_stored _ _ Hs').
  destruct Hc as [[-> ->]|[(c & t & -> & Ht & -> & Hd)|
                           (tn & i & m & ts & -> & Hi & -> & ->)]].
  - simpl. intros ->. by left.
  - rewrite lookup_drop.
    destruct (decide (evicted (OpNotify c) w + j < length l)) as [Hlt|Hge].
    + rewrite lookup_app_l by done. intros ->. by left.
    + rewrite (lookup_ge_None_2 l (evicted (OpNotify c) w + j)) by lia.
      rewrite lookup_app_r by lia.
      intros [_ <-]%list_lookup_singleton_Some. eauto.
  - simpl. destruct (decide (i = j)) as [->|Hne].
    + rewrite list_lookup_insert_eq by by eapply lookup_lt_Some.
      intros [= <-]. rewrite Hi. right. split_and!; [by eexists| |].
      * apply resolved_ticket_record.
      * intros. by apply field_resolved_record.
    + rewrite list_lookup_insert_ne by done. intros ->. by left.
Qed.

Lemma exec_keeps o w j :
  reachable w → is_Some (items w !! (evicted o w + j)) →
  is_Some (items (exec o w) !! j).
Proof.
  intros (l & Hs & Hok)%reachable_ok.
  destruct (exec_cases o w l Hs Hok) as (l' & Hs' & Hc).
  rewrite (items_stored _ _ Hs), (items_stored _ _ Hs').
  destruct Hc as [[-> ->]|[(c & t & -> & Ht & -> & Hd)|
                           (tn & i & m & ts & -> & Hi & -> & ->)]].
  - done.
  - rewrite lookup_drop. intros [x Hx]. exists x. by apply lookup_app_l_Some.
  - simpl. rewrite !lookup_lt_is_Some. by rewrite length_insert.
Qed.

Lemma tracks_resolved w i w' j :
  reachable w → tracks w i w' j →
  ∀ t, items w !! i = Some t →
  reachable w' ∧
  ∃ t', items w' !! j = Some t' ∧ (resolved_ticket t → resolved_ticket t').
Proof.
  intros Hw Ht. induction Ht as [|w i w' o j _ IH|w i w' w'' j _ IH Hf];
    intros t Hi.
  - eauto.
  - destruct (IH Hw t Hi) as (Hw' & t1 & H1 & Hr).
    split; [by constructor|].
    destruct (exec_keeps o w' j Hw') as [t' Ht']; [by rewrite H1|].
    exists t'. split; [done|]. intros Hres.
    pose proof (exec_ticket o w' j t' Hw' Ht') as Hstep. rewrite H1 in Hstep.
    destruct Hstep as [->|(_ & ? & _)]; auto.
  - destruct (IH Hw t Hi) as (Hw' & t1 & H1 & Hr).
    split; [by eapply reach_env|].
    exists t1. by rewrite (items_file _ _ Hf).
Qed.

Lemma status_pending n : pending_ticket n → field "status" n = JStr "pending".
Proof. intros (m & -> & H & _). simpl. by rewrite H. Qed.

Lemma status_resolved n : resolved_ticket n → field "status" n = JStr "resolved".
Proof. intros (m & -> & H & _). simpl. by rewrite H. Qed.

Lemma items_ok w i t : reachable w → items w !! i = Some t → ticket_ok t.
Proof.
  intros (l & Hs & Hok)%reachable_ok. rewrite (items_stored _ _ Hs).
  intros Hi. by eapply Forall_lookup_1.
Qed.

(** Along a run the status of a ticket changes at most once. *)
Lemma status_changes_once w i w' j w'' k t t' t'' :
  reachable w → tracks w i w' j → tracks w' j w'' k →
  items w !! i = Some t → items w' !! j = Some t' → items w'' !! k = Some t'' →
  field "status" t ≠ field "status" t' →
  field "status" t = JStr "pending" ∧
  field "status" t' = JStr "resolved" ∧
  field "status" t'' = JStr "resolved".
Proof.
  intros Hw T1 T2 Hi Hj Hk Hne.
  destruct (tracks_resolved w i w' j Hw T1 t Hi) as (Hw' & t1 & H1 & Hr1).
  rewrite Hj in H1. injection H1 as <-.
  destruct (tracks_resolved w' j w'' k Hw' T2 t' Hj) as (_ & t2 & H2 & Hr2).
  rewrite Hk in H2. injection H2 as <-.
  destruct (items_ok w i t Hw Hi) as [Hp|Hr].
  - destruct (items_ok w' j t' Hw' Hj) as [Hp'|Hr'].
    + destruct Hne. by rewrite (status_pending t), (status_pending t').
    + auto using status_pending, status_resolved.
  - destruct Hne.
    by rewrite (status_resolved t), (status_resolved t') by auto.
Qed.

(** ** Resolving the ticket just filed *)

Lemma is_pending_resolved_record m ts :
  is_pending (JObj (resolved_record m ts)) = false.
Proof.
  unfold is_pending, resolved_record, py_setitem. simpl.
  by rewrite lookup_insert_ne, lookup_insert_eq.
Qed.


(** C2, on the code as it is.  Two guests call within one second and are
    given the same ticket number.  Resolving the number the second guest
    was given answers success, yet it is the first guest's ticket that is
    rewritten: the ticket just filed is still pending, has no
    "resolved_at", and the status tool still lists its number. *)
Theorem resolve_after_same_second_filing :
  match same_second_scenario kiosk with
  | (Ok (a, b, r, s), w') =>
      a !! "ticket_number" = Some (JStr same_second_number) ∧
      b !! "ticket_number" = Some (JStr same_second_number) ∧
      r !! "success" = Some (JBool true) ∧
      summary <$> items w' =
        [(JStr same_second_number, JStr "Check-in", JStr "resolved",
          JStr "2025-03-14T09:26:53.004000");
         (JStr same_second_number, JStr "Payment", JStr "pending", JNull)] ∧
      s !! "pending_count" = Some (JInt 1) ∧
      s !! "pending_tickets" = Some (JArr [JStr same_second_number])
  | _ => False
  end.
Proof. vm_compute. by repeat split. Qed.

(** ** The life of a ticket, over reachable stores *)

(** C3. Every reachable store is a list of tickets whose status is
    "pending" or "resolved", with "resolved_at" present exactly on the
    resolved ones.  An operation leaves each stored ticket as it was, or,
    when it is a resolve, rewrites it as resolved, touching only "status"
    and "resolved_at"; a ticket without predecessor was just filed and is
    pending without "resolved_at".  Followed through any number of
    operations, a resolved ticket stays resolved; and when the status of a
    ticket has changed, it was "pending", is "resolved", and is "resolved"
    ever after: it changes at most once. *)
Theorem ticket_status_lifecycle :
  (∀ w, reachable w →
     ∃ l, stored w = Ok (JArr l) ∧
       ∀ n, n ∈ l → ∃ m, n = JObj m ∧
         (m !! "status" = Some (JStr "pending") ∨
          m !! "status" = Some (JStr "resolved")) ∧
         (is_Some (m !! "resolved_at") ↔
          m !! "status" = Some (JStr "resolved"))) ∧
  (∀ w o j t', reachable w → items (exec o w) !! j = Some t' →
     match items w !! (evicted o w + j) with
     | Some t =>
         t' = t ∨
         ((∃ tn, o = OpResolve tn) ∧ resolved_ticket t' ∧
          ∀ k, k ≠ "status" → k ≠ "resolved_at" → field k t' = field k t)
     | None => (∃ c, o = OpNotify c) ∧ pending_ticket t'
     end) ∧
  (∀ w i w' j t t', reachable w → tracks w i w' j →
     items w !! i = Some t → items w' !! j = Some t' →
     resolved_ticket t → resolved_ticket t') ∧
  (∀ w i w' j w'' k t t' t'', reachable w →
     tracks w i w' j → tracks w' j w'' k →
     items w !! i = Some t → items w' !! j = Some t' →
     items w'' !! k = Some t'' →
     field "status" t ≠ field "status" t' →
     field "status" t = JStr "pending" ∧
     field "status" t' = JStr "resolved" ∧
     field "status" t'' = JStr "resolved").
Proof.
  split_and!; [| | |apply status_changes_once].
  - intros w (l & Hs & Hok)%reachable_ok. exists l. split; [done|].
    intros n Hn. apply (proj1 (Forall_forall _ _) Hok) in Hn.
    destruct Hn as [(m & -> & Hst & Hra)|(m & -> & Hst & Hra)];
      exists m; (split; [done|]); rewrite Hst.
    + split; [by left|]. rewrite Hra. split; [by intros []|done].
    + split; [by right|]. done.
  - intros w o. apply exec_ticket.
  - intros w i w' j t t' Hw Ht Hi Hj Hres.
    destruct (tracks_resolved w i w' j Hw Ht t Hi) as (_ & t1 & H1 & Hr).
    rewrite Hj in H1. injection H1 as <-. auto.
Qed.

(** ** A file that is not UTF-8 *)

(** C9, on the code as it is.  A file that is missing, cannot be read or
    is not JSON loads as the empty list, and a JSON file loads as its
    value.  A file whose bytes are not UTF-8 does not: the decoder's
    [UnicodeDecodeError] is neither a [JSONDecodeError] nor an [IOError],
    it leaves [load_notifications], and every tool that loads the file
    raises it in turn. *)
Theorem load_notifications_undecodable wr clk t ws b :
  (∀ f, f ∈ [Absent; Unreadable; Malformed] →
     load_notifications (mkWorld f wr clk t ws b) =
       (Ok (JArr []), mkWorld f wr clk t ws b)) ∧
  (∀ v, load_notifications (mkWorld (Holds v) wr clk t ws b) =
          (Ok v, mkWorld (Holds v) wr clk t ws b)) ∧
  let w := mkWorld Undecodable wr clk t ws b in
  load_notifications w = (Raise UnicodeDecodeError, w) ∧
  (get_staff_status w).1 = Raise UnicodeDecodeError ∧
  (∀ tn, (mark_notification_resolved tn w).1 = Raise UnicodeDecodeError) ∧
  (∀ reason guest_language priority additional_info,
     (call_staff reason guest_language priority additional_info w).1 =
       Raise UnicodeDecodeError).
Proof.
  split; [|split].
  - intros f Hf. rewrite load_notifications_eq. simpl.
    set_unfold. by destruct Hf as [->|[->|[->|[]]]].
  - intros v. by rewrite load_notifications_eq.
  - intros w. split_and!.
    + by rewrite load_notifications_eq.
    + done.
    + done.
    + intros. unfold call_staff. by rewrite notify_staff_eq.
Qed.

(** ** The theorems at the kiosk *)

Lemma notify_staff_estimated_response_time_witness :
  confirmation same_second_number "urgent" !! "estimated_response_time" =
    Some (JStr "1 minute") ∧
  confirmation same_second_number "as soon as possible"
    !! "estimated_response_time" = Some (JStr "2-3 minutes").
Proof.
  destruct (notify_staff_estimated_response_time
              "Check-in" "Korean" "urgent" "Front Desk Kiosk" "" kiosk
              (confirmation same_second_number "urgent")
              (notify_staff "Check-in" "Korean" "urgent" "Front Desk Kiosk" ""
                 kiosk).2 eq_refl) as (Hurgent & _ & _).
  destruct (notify_staff_estimated_response_time
              "Check-in" "Korean" "as soon as possible" "Front Desk Kiosk" ""
              kiosk
              (confirmation same_second_number "as soon as possible")
              (notify_staff "Check-in" "Korean" "as soon as possible"
                 "Front Desk Kiosk" "" kiosk).2 eq_refl) as (_ & Hother & _).
  split; [exact (Hurgent eq_refl)|]. apply Hother. discriminate.
Defined.




Lemma mark_notification_resolved_unknown_witness :
  ∃ r,
    mark_notification_resolved "TKT-19990101000000" busy_kiosk =
      (Ok r, busy_kiosk) ∧
    r !! "success" = Some (JBool false) ∧
    r !! "message" = Some (JStr "Ticket TKT-19990101000000 not found").
Proof.
  apply (mark_notification_resolved_unknown "TKT-19990101000000" busy_kiosk
           [JObj first_guest_ticket; JObj second_guest_ticket] eq_refl).
  - repeat constructor.
  - intros n Hn. set_unfold. destruct Hn as [->|[->|[]]]; by vm_compute.
Defined.

Lemma get_staff_status_listing_witness :
  ∃ r ids,
    get_staff_status crowded_kiosk = (Ok r, crowded_kiosk) ∧
    r !! "pending_count" = Some (JInt 7) ∧
    r !! "pending_tickets" = Some (JArr ids) ∧
    length ids ≤ 5 ∧
    ids = [JStr "TKT-20250314092604"; JStr "TKT-20250314092606";
           JStr "TKT-20250314092608"; JStr "TKT-20250314092610";
           JStr "TKT-20250314092612"].
Proof.
  destruct (get_staff_status_listing crowded_kiosk
              (filed (λ k, mkDatetime 2025 3 14 9 26 k 0) 0
                 (replicate 7 check_in)) eq_refl)
    as (r & ids & H & Hc & Hi & Hl & _ & He).
  - apply filed_dicts.
  - exists r, ids. split_and!; assumption.
Defined.

Lemma mark_notification_resolved_frame_witness :
  ∃ i m m' l',
    [JObj first_guest_ticket; JObj second_guest_ticket] !! i = Some (JObj m) ∧
    file (mark_notification_resolved same_second_number busy_kiosk).2 =
      Holds (JArr l') ∧
    length l' = 2 ∧
    (∀ j, j ≠ i →
       l' !! j = [JObj first_guest_ticket; JObj second_guest_ticket] !! j) ∧
    l' !! i = Some (JObj m') ∧
    m' !! "status" = Some (JStr "resolved") ∧
    (∀ k, k ≠ "status" → k ≠ "resolved_at" → m' !! k = m !! k).
Proof.
  destruct (mark_notification_resolved_frame same_second_number busy_kiosk
              [JObj first_guest_ticket; JObj second_guest_ticket] eq_refl
              (marked same_second_number)
              (mark_notification_resolved same_second_number busy_kiosk).2
              eq_refl eq_refl)
    as (i & m & m' & l' & Hi & _ & _ & Hf & Hlen & Hoth & Hi' & Hst & _ & Hk).
  exists i, m, m', l'. split_and!; assumption.
Defined.

Lemma ticket_status_lifecycle_witness :
  ∃ l,
    stored (exec (OpResolve same_second_number)
              (exec (OpNotify payment) (exec (OpNotify check_in) kiosk))) =
      Ok (JArr l) ∧
    ∀ n, n ∈ l → ∃ m, n = JObj m ∧
      (m !! "status" = Some (JStr "pending") ∨
       m !! "status" = Some (JStr "resolved")) ∧
      (is_Some (m !! "resolved_at") ↔ m !! "status" = Some (JStr "resolved")).
Proof.
  apply (proj1 ticket_status_lifecycle).
  do 3 apply reach_exec. apply reach_empty. left. reflexivity.
Defined.

(** * Further properties of the program *)

(** ** The alert *)

Lemma play_notification_sound_eq priority w :
  play_notification_sound priority w =
    (Ok tt,
     mkWorld (file w) (writable w) (clock w) (ticks w)
       (worn (winsound w) (alert_pattern priority))
       (beeps w ++ played (winsound w) (alert_pattern priority))).
Proof.
  destruct w as [f wr c t ws b].
  unfold play_notification_sound, alert_pattern. simpl.
  case_bool_decide; unfold try_except;
    destruct ws as [[|[|[|[|[|[|k]]]]]]|]; simpl;
    rewrite <-?app_assoc, ?take_nil, ?app_nil_r, ?Nat.sub_0_r; reflexivity.
Qed.

(** X1. The alert never fails its caller, whatever the priority and the
    state of the sound device.  It plays the tones of the pattern, three
    times 1000 Hz then 1500 Hz for "urgent" and once 800 Hz for anything
    else, up to the first tone the device refuses, none at all without
    [winsound]; file, permissions and clock are as before. *)
Theorem play_notification_sound_tones priority w :
  ∃ w',
    play_notification_sound priority w = (Ok tt, w') ∧
    beeps w' = beeps w ++ played (winsound w) (alert_pattern priority) ∧
    (priority = "urgent" →
       alert_pattern priority =
         [(1000, 200); (1500, 200); (1000, 200); (1500, 200);
          (1000, 200); (1500, 200)]) ∧
    (priority ≠ "urgent" → alert_pattern priority = [(800, 300)]) ∧
    file w' = file w ∧ writable w' = writable w ∧ clock w' = clock w ∧
    ticks w' = ticks w.
Proof.
  eexists. split; [apply play_notification_sound_eq|].
  split_and!; try done; unfold alert_pattern; intros H.
  - by rewrite bool_decide_true.
  - by rewrite bool_decide_false.
Qed.

(** ** Filing: failures, corrupt files, the alert *)

Section filing_more.
Variables (reason guest_language priority location additional_info : string).

Lemma notify_staff_file w :
  notify_staff reason guest_language priority location additional_info w =
    match file w with
    | Undecodable => (Raise UnicodeDecodeError, tick2 w)
    | Holds (JArr l) =>
        if writable w then
          (Ok (confirmation (ticket_number_at (clock w (ticks w))) priority),
           (play_notification_sound priority
              (set_file
                 (Holds (JArr (last_n 1000
                    (l ++ [ticket_at (clock w (ticks w)) (clock w (S (ticks w)))
                             reason guest_language priority location
                             additional_info]))))
                 (tick2 w))).2)
        else (Raise OSError, tick2 w)
    | Holds _ => (Raise AttributeError, tick2 w)
    | _ =>
        if writable w then
          (Ok (confirmation (ticket_number_at (clock w (ticks w))) priority),
           (play_notification_sound priority
              (set_file
                 (Holds (JArr
                    [ticket_at (clock w (ticks w)) (clock w (S (ticks w)))
                       reason guest_language priority location
                       additional_info]))
                 (tick2 w))).2)
        else (Raise OSError, tick2 w)
    end.
Proof.
  rewrite notify_staff_eq. unfold stored. rewrite load_notifications_eq.
  simpl. destruct (file w) as [| | | |[]]; reflexivity.
Qed.

(** X2. A filing raises [UnicodeDecodeError] when the bytes of the file
    are not UTF-8 and [AttributeError], from [append], when the file holds
    JSON that is not a list, in both cases whether or not the file can be
    written; it raises [OSError] when the file loads to a list but cannot
    be opened for writing. *)
Theorem notify_staff_raises w :
  (file w = Undecodable →
     (notify_staff reason guest_language priority location
        additional_info w).1 = Raise UnicodeDecodeError) ∧
  (∀ v, file w = Holds v → (∀ l, v ≠ JArr l) →
     (notify_staff reason guest_language priority location
        additional_info w).1 = Raise AttributeError) ∧
  (∀ l, stored w = Ok (JArr l) → writable w = false →
     (notify_staff reason guest_language priority location
        additional_info w).1 = Raise OSError).
Proof.
  rewrite notify_staff_file. split_and!.
  - by intros ->.
  - intros v -> Hv. destruct v as [| | | | |l|]; try done. by destruct (Hv l).
  - unfold stored. rewrite load_notifications_eq. simpl.
    intros l Hl Hw. rewrite Hw.
    destruct (file w) as [| | | |v]; simplify_eq/=; done.
Qed.

(** X3. In these three situations, a file that is not UTF-8, a file that
    holds JSON that is not a list, a file that cannot be opened for
    writing, the filing has read the clock twice and done nothing else:
    the file and the sound device are as they were, and no alert was
    sounded for the ticket that was not saved. *)
Theorem notify_staff_raise_frame w :
  file w = Undecodable ∨ (∃ v, file w = Holds v ∧ ∀ l, v ≠ JArr l) ∨
  writable w = false →
  ∃ e,
    notify_staff reason guest_language priority location additional_info w =
      (Raise e, tick2 w) ∧
    file (tick2 w) = file w ∧ beeps (tick2 w) = beeps w ∧
    winsound (tick2 w) = winsound w ∧ ticks (tick2 w) = S (S (ticks w)).
Proof.
  intros H. rewrite notify_staff_file.
  assert (∀ e, ∃ e0, (Raise e : result (gmap string json), tick2 w) =
                     (Raise e0, tick2 w) ∧
            file (tick2 w) = file w ∧ beeps (tick2 w) = beeps w ∧
            winsound (tick2 w) = winsound w ∧
            ticks (tick2 w) = S (S (ticks w))) as Hr by (intros e; by exists e).
  destruct H as [Hf|[(v & Hf & Hv)|Hw]].
  - destruct (file w); try done; apply Hr.
  - destruct (file w) as [| | | |v']; try done. injection Hf as ->.
    destruct v as [| | | | |l|]; try apply Hr. by destruct (Hv l).
  - rewrite Hw. destruct (file w) as [| | | |[]]; apply Hr.
Qed.


(** X5. Whatever list the file holds, however long, a filing that answers
    leaves at most 1000 records: the new one last, before it the 999 most
    recent of the old ones in their order. *)
Theorem notify_staff_bound w l r w' :
  stored w = Ok (JArr l) →
  notify_staff reason guest_language priority location additional_info w =
    (Ok r, w') →
  ∃ l',
    file w' = Holds (JArr l') ∧
    l' = last_n 999 l ++
         [ticket_at (clock w (ticks w)) (clock w (S (ticks w)))
            reason guest_language priority location additional_info] ∧
    length l' = S (length l) `min` 1000 ∧
    (∀ i, i < length l' - 1 → l' !! i = l !! (length l - (length l' - 1) + i)).
Proof.
  intros Hs H.
  destruct (notify_staff_inv _ _ _ _ _ _ _ _ H) as (l0 & Hs0 & Hw).
  rewrite Hs in Hs0. injection Hs0 as <-.
  destruct (notify_staff_ok reason guest_language priority location
              additional_info w l Hs Hw) as (w1 & H1 & Hf & _).
  rewrite H in H1. injection H1 as -> <-.
  rewrite (last_n_snoc 999) in Hf. eexists. split; [done|].
  split; [done|]. rewrite length_app, length_last_n. simpl.
  split; [lia|]. intros i Hi.
  rewrite lookup_app_l by (rewrite length_last_n; lia).
  unfold last_n. rewrite lookup_drop. f_equal. lia.
Qed.

(** X6. The alert of a filing that answers: the tones of the pattern for
    its priority, as far as the device plays them.  What the filing answers
    and what it writes do not depend on the sound device. *)
Theorem notify_staff_alert w :
  (∀ r w',
     notify_staff reason guest_language priority location additional_info w =
       (Ok r, w') →
     beeps w' = beeps w ++ played (winsound w) (alert_pattern priority)) ∧
  (∀ w2, file w2 = file w → writable w2 = writable w → clock w2 = clock w →
         ticks w2 = ticks w →
     (notify_staff reason guest_language priority location
        additional_info w2).1 =
     (notify_staff reason guest_language priority location
        additional_info w).1 ∧
     file (notify_staff reason guest_language priority location
             additional_info w2).2 =
     file (notify_staff reason guest_language priority location
             additional_info w).2).
Proof.
  split.
  - intros r w' H.
    destruct (notify_staff_inv _ _ _ _ _ _ _ _ H) as (l & Hs & Hw).
    rewrite notify_staff_eq, Hs, Hw, play_notification_sound_eq in H.
    by injection H as _ <-.
  - intros w2 Hf Hw Hc Ht. rewrite !notify_staff_eq.
    rewrite (stored_file w w2 Hf), Hw, Hc, Ht.
    destruct (stored w) as [[]|]; try (by simpl; rewrite Hf).
    destruct (writable w); [|by simpl; rewrite Hf].
    by rewrite !play_notification_sound_eq.
Qed.

End filing_more.

(** ** Ticket numbers *)

Lemma string_app_inj s1 : ∀ s2 t1 t2,
  String.length s1 = String.length s2 →
  s1 +:+ t1 = s2 +:+ t2 → s1 = s2 ∧ t1 = t2.
Proof.
  induction s1 as [|c s1 IH]; intros [|c2 s2] t1 t2 Hl H; simplify_eq/=.
  - done.
  - destruct (IH s2 t1 t2) as [-> ->]; auto.
Qed.

Lemma string_app_length s t :
  String.length (s +:+ t) = String.length s + String.length t.
Proof. induction s; simpl; auto. Qed.

Lemma pad_length w : ∀ n, String.length (pad w n) = w.
Proof.
  induction w as [|w IH]; intros n; [done|].
  simpl. rewrite string_app_length, IH. simpl. lia.
Qed.

Lemma digit_inj n m : digit n = digit m → n mod 10 = m mod 10.
Proof.
  unfold digit.
  assert (n mod 10 < 10) by (apply Nat.mod_upper_bound; lia).
  assert (m mod 10 < 10) by (apply Nat.mod_upper_bound; lia).
  revert H H0. generalize (n mod 10) (m mod 10). intros a b Ha Hb H.
  injection H as H. apply (f_equal Ascii.nat_of_ascii) in H.
  rewrite !Ascii.nat_ascii_embedding in H by lia. lia.
Qed.

Lemma pad_inj w : ∀ n m, n < 10 ^ w → m < 10 ^ w → pad w n = pad w m → n = m.
Proof.
  induction w as [|w IH]; intros n m Hn Hm H.
  - simpl in *. lia.
  - change (pad w (n / 10) +:+ digit n = pad w (m / 10) +:+ digit m) in H.
    apply string_app_inj in H as [H1 H2]; [|by rewrite !pad_length].
    apply digit_inj in H2. rewrite Nat.pow_succ_r' in Hn, Hm.
    apply IH in H1; [|apply Nat.Div0.div_lt_upper_bound; lia..].
    rewrite (Nat.div_mod_eq n 10), (Nat.div_mod_eq m 10). lia.
Qed.

Lemma strftime_YmdHMS_inj d1 d2 :
  valid_datetime d1 → valid_datetime d2 →
  strftime_YmdHMS d1 = strftime_YmdHMS d2 → same_second d1 d2.
Proof.
  intros (Hy1 & Hm1 & Hd1 & HH1 & HM1 & HS1 & _)
         (Hy2 & Hm2 & Hd2 & HH2 & HM2 & HS2 & _) H.
  unfold strftime_YmdHMS in H.
  do 5 (apply string_app_inj in H as [? H]; [|by rewrite !pad_length]).
  repeat match goal with
         | E : pad _ _ = pad _ _ |- _ =>
             apply pad_inj in E; [|first [lia|simpl; lia]..]
         end.
  done.
Qed.

Lemma confirmation_number t p :
  confirmation t p !! "ticket_number" = Some (JStr t).
Proof. reflexivity. Qed.

(** X7. Two filings that answer are given the same ticket number exactly
    when the clock readings their numbers are made of fall within the same
    second. *)
Theorem notify_staff_same_number
    reason1 guest_language1 priority1 location1 additional_info1 w1 r1 w1'
    reason2 guest_language2 priority2 location2 additional_info2 w2 r2 w2' :
  notify_staff reason1 guest_language1 priority1 location1 additional_info1 w1
    = (Ok r1, w1') →
  notify_staff reason2 guest_language2 priority2 location2 additional_info2 w2
    = (Ok r2, w2') →
  valid_datetime (clock w1 (ticks w1)) →
  valid_datetime (clock w2 (ticks w2)) →
  r1 !! "ticket_number" = r2 !! "ticket_number" ↔
  same_second (clock w1 (ticks w1)) (clock w2 (ticks w2)).
Proof.
  intros H1 H2 Hv1 Hv2.
  destruct (notify_staff_inv _ _ _ _ _ _ _ _ H1) as (l1 & Hs1 & Hw1).
  destruct (notify_staff_inv _ _ _ _ _ _ _ _ H2) as (l2 & Hs2 & Hw2).
  rewrite notify_staff_eq, Hs1, Hw1 in H1. injection H1 as <- _.
  rewrite notify_staff_eq, Hs2, Hw2 in H2. injection H2 as <- _.
  rewrite !confirmation_number. unfold ticket_number_at. split.
  - intros H.
    assert ("TKT-" +:+ strftime_YmdHMS (clock w1 (ticks w1)) =
            "TKT-" +:+ strftime_YmdHMS (clock w2 (ticks w2))) as E
      by congruence.
    apply string_app_inj in E as [_ E]; [|done].
    by apply strftime_YmdHMS_inj.
  - intros (Hy & Hm & Hd & HH & HM & HS). unfold strftime_YmdHMS.
    by rewrite Hy, Hm, Hd, HH, HM, HS.
Qed.

(** ** Resolving: outcomes, failures, repetition *)

Section resolving_more.
Variable tn : string.

(** The loop ends in one of four ways, and writes in the last only. *)
Lemma resolve_loop_outcome todo : ∀ seen w,
  resolve_loop tn seen todo w = (Ok (not_found tn), w) ∨
  resolve_loop tn seen todo w = (Raise AttributeError, w) ∨
  (resolve_loop tn seen todo w = (Raise OSError, tick w) ∧
   writable w = false) ∨
  (writable w = true ∧
   ∃ l', resolve_loop tn seen todo w =
           (Ok (marked tn), set_file (Holds (JArr l')) (tick w))).
Proof.
  induction todo as [|n todo IH]; intros seen w; [by left|].
  destruct n as [| | | | | |m]; try (right; left; reflexivity).
  destruct (has_number tn (JObj m)) eqn:Hh.
  - rewrite resolve_loop_hit by by rewrite Hh.
    destruct (writable w); [|by right; right; left].
    right; right; right. eauto.
  - assert (passed tn (JObj m)) as Hp.
    { split; [done|]. rewrite Hh. simpl. tauto. }
    change (JObj m :: todo) with ([JObj m] ++ todo).
    rewrite (resolve_loop_skip tn [JObj m] seen todo w) by by constructor.
    apply IH.
Qed.

(** X8. Resolving never uses the sound device.  When it answers, it
    answers one of two dictionaries: "not found", and then the world is
    as it was, nothing written and the clock not read; or success, and
    then the file could be written, the clock was read once and the file
    holds a list. *)
Theorem mark_notification_resolved_outcome w r w' :
  mark_notification_resolved tn w = (r, w') →
  beeps w' = beeps w ∧ winsound w' = winsound w ∧
  ∀ d, r = Ok d →
    (d = not_found tn ∧ w' = w) ∨
    (d = marked tn ∧ writable w = true ∧ ticks w' = S (ticks w) ∧
     ∃ l', file w' = Holds (JArr l')).
Proof.
  unfold mark_notification_resolved. unfold bind at 1.
  rewrite load_notifications_eq.
  assert (∀ v r w',
    (do items <- lift (py_iter v); resolve_loop tn [] items) w = (r, w') →
    beeps w' = beeps w ∧ winsound w' = winsound w ∧
    ∀ d, r = Ok d →
      (d = not_found tn ∧ w' = w) ∨
      (d = marked tn ∧ writable w = true ∧ ticks w' = S (ticks w) ∧
       ∃ l', file w' = Holds (JArr l')))
    as Hv.
  { intros v r0 w0. unfold bind, lift. destruct (py_iter v) as [l|e].
    - destruct (resolve_loop_outcome l [] w)
        as [->|[->|[[-> Hw]|(Hw & l' & ->)]]]; intros [= <- <-];
        (split; [done|]); (split; [done|]); intros d [= <-]; eauto 10.
    - intros [= <- <-]. by split_and!. }
  destruct (file w) eqn:Hf; try apply Hv.
  intros [= <- <-]. by split_and!.
Qed.

(** X9. When the number is on file but the file cannot be written,
    resolving raises [OSError] after reading the clock; the ticket stays
    as it was. *)
Theorem mark_notification_resolved_unwritable w l :
  stored w = Ok (JArr l) → Forall is_dict l →
  (∃ n, n ∈ l ∧ field "ticket_number" n = JStr tn) →
  writable w = false →
  mark_notification_resolved tn w = (Raise OSError, tick w) ∧
  stored (tick w) = Ok (JArr l).
Proof.
  intros Hs Hd (n & Hn & Hf) Hw.
  split; [|by rewrite (stored_file w)].
  destruct (mark_notification_resolved_cases tn w l Hs)
    as [[Hp _]|[(i & m & _ & _ & _ & H)|(i & x & Hi & Hb & _)]].
  - apply (proj1 (Forall_forall _ _) Hp) in Hn as [_ []].
    by apply py_eq_str_true.
  - by rewrite H, Hw.
  - destruct Hb. by eapply Forall_lookup_1.
Qed.



Lemma is_pending_dict m :
  is_pending (JObj m) ↔ m !! "status" = Some (JStr "pending").
Proof.
  unfold is_pending. rewrite py_eq_str_true. simpl.
  destruct (m !! "status"); simpl; split; congruence.
Qed.

Lemma filter_insert_length {A} (P : A → Prop) `{∀ x, Decision (P x)}
    (l : list A) i x y :
  l !! i = Some y → ¬ P x →
  length (filter P (<[i:=x]> l)) + (if decide (P y) then 1 else 0) =
  length (filter P l).
Proof.
  intros Hi Hx. rewrite insert_take_drop by by eapply lookup_lt_Some.
  rewrite <-(take_drop_middle l i y Hi) at 3.
  rewrite !filter_app, !filter_cons, !length_app.
  rewrite (decide_False (P:=P x)) by done.
  case_decide; simpl; lia.
Qed.

(** X11. After a resolve that answered success, the status tool counts one
    pending ticket fewer when the ticket found was pending, and as many as
    before when it was not. *)
Theorem mark_notification_resolved_pending_count w l r w' :
  stored w = Ok (JArr l) → Forall is_dict l →
  mark_notification_resolved tn w = (Ok r, w') →
  r !! "success" = Some (JBool true) →
  ∃ i m s c,
    l !! i = Some (JObj m) ∧ m !! "ticket_number" = Some (JStr tn) ∧
    get_staff_status w' = (Ok s, w') ∧
    s !! "pending_count" = Some (JInt (Z.of_nat c)) ∧
    (m !! "status" = Some (JStr "pending") →
       c + 1 = length (filter is_pending l)) ∧
    (m !! "status" ≠ Some (JStr "pending") →
       c = length (filter is_pending l)).
Proof.
  intros Hs Hd H Hr.
  destruct (mark_notification_resolved_cases tn w l Hs)
    as [[_ H']|[(i & m & Hi & Hm & _ & H')|(i & x & _ & _ & _ & H')]];
    rewrite H' in H; clear H'.
  - by injection H as <- <-.
  - destruct (writable w); [|done]. injection H as <- <-.
    set (x := JObj (resolved_record m (isoformat (clock w (ticks w))))).
    assert (¬ is_pending x) as Hx.
    { unfold x. rewrite is_pending_resolved_record. simpl. tauto. }
    pose proof (filter_insert_length (λ n, is_pending n) l i x (JObj m) Hi Hx)
      as Hlen.
    exists i, m, (status_report (filter is_pending (<[i:=x]> l))),
      (length (filter is_pending (<[i:=x]> l))).
    split_and!; [done|by apply has_number_dict| | |..].
    + apply get_staff_status_eq; [by apply stored_holds|].
      by apply Forall_insert.
    + done.
    + intros Hp%is_pending_dict. by rewrite decide_True in Hlen.
    + intros Hp. rewrite decide_False in Hlen; [lia|].
      by rewrite is_pending_dict.
  - done.
Qed.

End resolving_more.


(** ** Listing: malformed stores, what is listed, what is left alone *)

Lemma select_pending_bad l :
  (∃ n, n ∈ l ∧ ¬ is_dict n) → select_pending l = Raise AttributeError.
Proof.
  induction l as [|x l IH]; intros (n & Hn & Hb).
  - by apply not_elem_of_nil in Hn.
  - destruct x as [| | | | | |m]; try reflexivity.
    apply elem_of_cons in Hn as [->|Hn]; [by destruct Hb|].
    simpl. rewrite IH by eauto. reflexivity.
Qed.

(** X13. One stored item that is not a dict, wherever it stands in the
    list, makes both listing tools raise [AttributeError]; the world is
    left as it was. *)
Theorem listing_with_bad_item w l :
  stored w = Ok (JArr l) → (∃ n, n ∈ l ∧ ¬ is_dict n) →
  get_pending_notifications w = (Raise AttributeError, w) ∧
  get_staff_status w = (Raise AttributeError, w).
Proof.
  intros Hs Hb.
  assert (get_pending_notifications w = (Raise AttributeError, w)) as H.
  { unfold get_pending_notifications, bind, lift.
    unfold stored in Hs. rewrite load_notifications_eq in *. simpl in *.
    rewrite Hs. simpl. by rewrite select_pending_bad. }
  split; [done|]. unfold get_staff_status. unfold bind at 1. by rewrite H.
Qed.

(** X14. A file holding JSON that is not a list.  [null], a boolean or a
    number cannot be iterated: listing and resolving raise [TypeError].
    An empty object or string iterates to nothing: the listing is empty
    and resolving answers "not found".  Any other object or string
    iterates to strings, which have no [get]: [AttributeError]. *)
Theorem tools_on_non_list w v tn :
  file w = Holds v →
  match v with
  | JArr _ => True
  | JNull | JBool _ | JInt _ | JFloat _ =>
      get_staff_status w = (Raise TypeError, w) ∧
      mark_notification_resolved tn w = (Raise TypeError, w)
  | JObj m =>
      if decide (m = ∅) then
        get_staff_status w = (Ok (status_report []), w) ∧
        mark_notification_resolved tn w = (Ok (not_found tn), w)
      else
        get_staff_status w = (Raise AttributeError, w) ∧
        mark_notification_resolved tn w = (Raise AttributeError, w)
  | JStr s =>
      if decide (s = "") then
        get_staff_status w = (Ok (status_report []), w) ∧
        mark_notification_resolved tn w = (Ok (not_found tn), w)
      else
        get_staff_status w = (Raise AttributeError, w) ∧
        mark_notification_resolved tn w = (Raise AttributeError, w)
  end.
Proof.
  intros Hf.
  assert (∀ x, get_staff_status x =
    match get_pending_notifications x with
    | (Ok p, x') =>
        (do ids <- lift (ticket_numbers (last_n 5 p));
         ret (list_to_map [
           ("pending_count", JInt (Z.of_nat (length p)));
           ("pending_tickets", JArr ids)])) x'
    | (Raise e, x') => (Raise e, x')
    end) as Hst by done.
  assert (get_pending_notifications w =
          (rbind (py_iter v) select_pending, w)) as Hp.
  { unfold get_pending_notifications, bind, lift.
    by rewrite load_notifications_eq, Hf. }
  assert (mark_notification_resolved tn w =
          match py_iter v with
          | Ok l => resolve_loop tn [] l w
          | Raise e => (Raise e, w)
          end) as Hm.
  { unfold mark_notification_resolved, bind, lift.
    rewrite load_notifications_eq, Hf. by destruct (py_iter v). }
  rewrite Hst, Hp, Hm.
  destruct v as [| | | |s|l|m]; try done.
  - case_decide as Hs; [by subst s|].
    destruct s as [|c s]; [done|]. done.
  - case_decide as He.
    + subst m. simpl. rewrite map_to_list_empty. done.
    + simpl. destruct (map_to_list m) as [|[k x] kvs] eqn:Hl.
      * by apply map_to_list_empty_iff in Hl.
      * done.
Qed.

(** X15. On a store of dicts the pending listing is the stored list with
    everything removed whose "status" is not the string "pending", a
    missing "status" included; the order is kept, and the world is left
    as it was. *)
Theorem get_pending_notifications_sublist w l :
  stored w = Ok (JArr l) → Forall is_dict l →
  ∃ p,
    get_pending_notifications w = (Ok p, w) ∧
    sublist p l ∧
    (∀ n, n ∈ p ↔ n ∈ l ∧ field "status" n = JStr "pending") ∧
    (∀ m, m !! "status" = None → JObj m ∉ p).
Proof.
  intros Hs Hd. exists (filter is_pending l).
  split; [by apply get_pending_notifications_eq|].
  split; [apply sublist_filter|]. split.
  - intros n. rewrite list_elem_of_filter. unfold is_pending.
    rewrite py_eq_str_true. tauto.
  - intros m Hm. rewrite list_elem_of_filter. unfold is_pending.
    rewrite py_eq_str_true. simpl. rewrite Hm. simpl. intros [[=] _].
Qed.

(** X16. Loading and the two listing tools never change the world: not
    the file, not the clock, not the sound device, whatever the file
    holds and whether they answer or raise. *)
Theorem reading_changes_nothing w :
  (load_notifications w).2 = w ∧
  (get_pending_notifications w).2 = w ∧
  (get_staff_status w).2 = w.
Proof.
  split_and!.
  - by rewrite load_notifications_eq.
  - apply get_pending_notifications_frame.
  - apply get_staff_status_frame.
Qed.

(** ** The tool wrapper *)

(** X17. [call_staff] cannot choose the location: when it answers, the
    newest record on file has location "Front Desk Kiosk" and the reason,
    language, priority and additional information passed in, and the
    answer carries that record's ticket number. *)
Theorem call_staff_location reason guest_language priority additional_info
    w r w' :
  call_staff reason guest_language priority additional_info w = (Ok r, w') →
  ∃ l m,
    file w' = Holds (JArr (l ++ [JObj m])) ∧
    m !! "location" = Some (JStr "Front Desk Kiosk") ∧
    m !! "reason" = Some (JStr reason) ∧
    m !! "guest_language" = Some (JStr guest_language) ∧
    m !! "priority" = Some (JStr priority) ∧
    m !! "additional_info" = Some (JStr additional_info) ∧
    m !! "status" = Some (JStr "pending") ∧
    r !! "ticket_number" = m !! "ticket_number".
Proof.
  unfold call_staff. intros H.
  destruct (notify_staff_inv _ _ _ _ _ _ _ _ H) as (l & Hs & Hw).
  destruct (notify_staff_ok reason guest_language priority "Front Desk Kiosk"
              additional_info w l Hs Hw) as (w1 & H1 & Hf & _).
  rewrite H in H1. injection H1 as -> <-.
  rewrite (last_n_snoc 999) in Hf. eexists _, _. split; [done|].
  by split_and!.
Qed.

(** ** Filing, then listing *)



(** ** The further properties at the kiosk *)

Lemma notify_staff_raise_frame_witness :
  ∃ e,
    notify_staff "Check-in" "Korean" "urgent" "Front Desk Kiosk" ""
      (locked kiosk) = (Raise e, tick2 (locked kiosk)) ∧
    file (tick2 (locked kiosk)) = Absent ∧
    beeps (tick2 (locked kiosk)) = [] ∧
    winsound (tick2 (locked kiosk)) = None ∧
    ticks (tick2 (locked kiosk)) = 2.
Proof.
  apply (notify_staff_raise_frame "Check-in" "Korean" "urgent"
           "Front Desk Kiosk" "" (locked kiosk)).
  right; right. reflexivity.
Defined.

Lemma mark_notification_resolved_outcome_witness :
  beeps (mark_notification_resolved same_second_number busy_kiosk).2 = [] ∧
  winsound (mark_notification_resolved same_second_number busy_kiosk).2 =
    None ∧
  ∀ d, Ok (marked same_second_number) = Ok d →
    (d = not_found same_second_number ∧
     (mark_notification_resolved same_second_number busy_kiosk).2 =
       busy_kiosk) ∨
    (d = marked same_second_number ∧ writable busy_kiosk = true ∧
     ticks (mark_notification_resolved same_second_number busy_kiosk).2 = 5 ∧
     ∃ l', file (mark_notification_resolved same_second_number busy_kiosk).2 =
             Holds (JArr l')).
Proof.
  apply (mark_notification_resolved_outcome same_second_number busy_kiosk
           (Ok (marked same_second_number))
           (mark_notification_resolved same_second_number busy_kiosk).2).
  reflexivity.
Defined.


Lemma notify_staff_bound_witness :
  ∃ l',
    file (notify_call payment busy_kiosk).2 = Holds (JArr l') ∧
    length l' = 3.
Proof.
  destruct (notify_staff_bound "Payment" "English" "normal"
              "Front Desk Kiosk" "card declined" busy_kiosk
              [JObj first_guest_ticket; JObj second_guest_ticket]
              (confirmation same_second_number "normal")
              (notify_call payment busy_kiosk).2 eq_refl eq_refl)
    as (l' & Hf & _ & Hlen & _).
  exists l'. split; assumption.
Defined.

Lemma notify_staff_same_number_witness :
  confirmation same_second_number "urgent" !! "ticket_number" =
  confirmation same_second_number "normal" !! "ticket_number".
Proof.
  apply (notify_staff_same_number
           "Check-in" "Korean" "urgent" "Front Desk Kiosk" ""
           kiosk (confirmation same_second_number "urgent")
           (notify_call check_in kiosk).2
           "Payment" "English" "normal" "Front Desk Kiosk" "card declined"
           busy_kiosk (confirmation same_second_number "normal")
           (notify_call payment busy_kiosk).2).
  - reflexivity.
  - reflexivity.
  - repeat split; apply Nat.leb_le; by vm_compute.
  - repeat split; apply Nat.leb_le; by vm_compute.
  - by split_and!.
Defined.

Lemma mark_notification_resolved_unwritable_witness :
  mark_notification_resolved same_second_number (locked busy_kiosk) =
    (Raise OSError, tick (locked busy_kiosk)) ∧
  stored (tick (locked busy_kiosk)) =
    Ok (JArr [JObj first_guest_ticket; JObj second_guest_ticket]).
Proof.
  apply (mark_notification_resolved_unwritable same_second_number
           (locked busy_kiosk)
           [JObj first_guest_ticket; JObj second_guest_ticket] eq_refl).
  - repeat constructor.
  - exists (JObj second_guest_ticket). split; [set_solver|reflexivity].
  - reflexivity.
Defined.


Lemma mark_notification_resolved_pending_count_witness :
  ∃ i m s c,
    [JObj first_guest_ticket; JObj second_guest_ticket] !! i = Some (JObj m) ∧
    get_staff_status
      (mark_notification_resolved same_second_number busy_kiosk).2 =
      (Ok s, (mark_notification_resolved same_second_number busy_kiosk).2) ∧
    s !! "pending_count" = Some (JInt (Z.of_nat c)) ∧
    (m !! "status" = Some (JStr "pending") → c + 1 = 2).
Proof.
  destruct (mark_notification_resolved_pending_count same_second_number
              busy_kiosk [JObj first_guest_ticket; JObj second_guest_ticket]
              (marked same_second_number)
              (mark_notification_resolved same_second_number busy_kiosk).2
              eq_refl)
    as (i & m & s & c & Hi & _ & Hs & Hc & Hp & _).
  - repeat constructor.
  - reflexivity.
  - reflexivity.
  - exists i, m, s, c. split_and!; assumption.
Defined.


Lemma listing_with_bad_item_witness :
  get_pending_notifications edited_kiosk =
    (Raise AttributeError, edited_kiosk) ∧
  get_staff_status edited_kiosk = (Raise AttributeError, edited_kiosk).
Proof.
  apply (listing_with_bad_item edited_kiosk
           [JObj first_guest_ticket; JStr "call room 12"] eq_refl).
  exists (JStr "call room 12"). split; [set_solver|]. simpl. tauto.
Defined.

Lemma tools_on_non_list_witness :
  let w := mkWorld (Holds JNull) true (clock kiosk) 0 None [] in
  get_staff_status w = (Raise TypeError, w) ∧
  mark_notification_resolved same_second_number w = (Raise TypeError, w).
Proof.
  intros w. exact (tools_on_non_list w JNull same_second_number eq_refl).
Defined.

Lemma get_pending_notifications_sublist_witness :
  ∃ p,
    get_pending_notifications busy_kiosk = (Ok p, busy_kiosk) ∧
    sublist p [JObj first_guest_ticket; JObj second_guest_ticket].
Proof.
  destruct (get_pending_notifications_sublist busy_kiosk
              [JObj first_guest_ticket; JObj second_guest_ticket] eq_refl)
    as (p & H & Hsub & _).
  - repeat constructor.
  - exists p. split; assumption.
Defined.

Lemma call_staff_location_witness :
  ∃ l m,
    file (call_staff "Payment" "English" "normal" "card declined" kiosk).2 =
      Holds (JArr (l ++ [JObj m])) ∧
    m !! "location" = Some (JStr "Front Desk Kiosk") ∧
    m !! "reason" = Some (JStr "Payment").
Proof.
  destruct (call_staff_location "Payment" "English" "normal" "card declined"
              kiosk (confirmation same_second_number "normal")
              (call_staff "Payment" "English" "normal" "card declined" kiosk).2
              eq_refl)
    as (l & m & Hf & Hl & Hr & _).
  exists l, m. split_and!; assumption.
Defined.


